(** * TypeAnnotateCheck: the [%%mypy] cell magic and the tuple demo

    A shallow embedding of the two Python sources of the repository,

    - [mypycheck.py]: the cell magic [typechecker(line, cell)] that runs
      [mypy.api.run] on a notebook cell and prints its reports;
    - [mytuples.py]: the script that defines [my_tuple0] twice and prints
      the tuple it builds and its [__annotations__];

    together with the properties of them that the specification states. *)

From Stdlib Require Import ZArith NArith String Ascii List DecimalString.
From stdpp Require Import base list.
Import ListNotations.

Local Open Scope Z_scope.
Local Open Scope list_scope.

(** ** The part of the Python runtime the sources rely on *)

Module Py.

(** A Python [str] is a sequence of Unicode code points. *)
Definition pystr : Type := list N.

(** A source literal (ASCII) as a [str]. *)
Definition py (s : string) : pystr :=
  map N_of_ascii (list_ascii_of_string s).

(** The line terminator [print] writes. *)
Definition nl : pystr := [10%N].

(** Truth value of a [str] in a condition: [if s:] holds exactly when
    [s] is not empty. *)
Definition truthy (s : pystr) : bool :=
  match s with
  | [] => false
  | _ :: _ => true
  end.

(** [str.isspace] on one code point: the code points whose
    bidirectional class is WS, B or S, or whose category is Zs.  These
    are the characters [str.split()] treats as separators. *)
Definition isspace (c : N) : bool :=
  ((9 <=? c) && (c <=? 13)          (* \t \n \v \f \r *)
   || (28 <=? c) && (c <=? 32)      (* FS GS RS US and the space *)
   || (c =? 133)                    (* U+0085 NEL *)
   || (c =? 160)                    (* U+00A0 no-break space *)
   || (c =? 5760)                   (* U+1680 *)
   || (8192 <=? c) && (c <=? 8202)  (* U+2000 .. U+200A *)
   || (c =? 8232) || (c =? 8233)    (* U+2028, U+2029 *)
   || (c =? 8239)                   (* U+202F *)
   || (c =? 8287)                   (* U+205F *)
   || (c =? 12288))%N%bool.         (* U+3000 *)

(** [s.split()] without arguments: runs of whitespace separate the
    tokens, leading and trailing whitespace is dropped, and no token is
    empty.  [word] holds the characters of the token being read, last
    one first. *)
Fixpoint split_from (word : pystr) (s : pystr) : list pystr :=
  match s with
  | [] =>
      match word with
      | [] => []
      | _ :: _ => [rev word]
      end
  | c :: rest =>
      if isspace c then
        match word with
        | [] => split_from [] rest
        | _ :: _ => rev word :: split_from [] rest
        end
      else split_from (c :: word) rest
  end.

Definition split (s : pystr) : list pystr := split_from [] s.

(** Splitting on whitespace, as a relation between a text and its
    tokens: the text is whitespace, or it is whitespace, then a token
    (not empty, free of whitespace, and ending where the text ends or
    where whitespace follows), then a text that splits into the
    remaining tokens. *)
Definition blank (s : pystr) : Prop := Forall (fun c => isspace c = true) s.
Definition solid (s : pystr) : Prop := Forall (fun c => isspace c = false) s.
Definition token_ends (rest : pystr) : Prop :=
  match rest with
  | [] => True
  | c :: _ => isspace c = true
  end.

Inductive splits_into : pystr -> list pystr -> Prop :=
| splits_blank ws :
    blank ws -> splits_into ws []
| splits_token ws token rest tokens :
    blank ws -> token <> [] -> solid token -> token_ends rest ->
    splits_into rest tokens ->
    splits_into (ws ++ token ++ rest) (token :: tokens).

(** What a token is: not empty and free of whitespace. *)
Definition is_token (token : pystr) : Prop := token <> [] /\ solid token.

(** [sep.join(parts)]. *)
Fixpoint join (sep : pystr) (parts : list pystr) : pystr :=
  match parts with
  | [] => []
  | [p] => p
  | p :: ps => p ++ sep ++ join sep ps
  end.

(** [str(z)] for an [int]: decimal digits, with a minus sign below 0. *)
Definition str_int (z : Z) : pystr :=
  py (NilZero.string_of_int (Z.to_int z)).

(** [needle in hay] for two [str]s. *)
Fixpoint starts_with (needle hay : pystr) : bool :=
  match needle, hay with
  | [], _ => true
  | _ :: _, [] => false
  | a :: needle', b :: hay' => (a =? b)%N && starts_with needle' hay'
  end.

Fixpoint contains (hay needle : pystr) : bool :=
  starts_with needle hay
  || match hay with
     | [] => false
     | _ :: hay' => contains hay' needle
     end.

End Py.

Import Py.

(** ** mypycheck.py *)

Module MyPyCheck.

(** What [mypy.api.run] returns: the text mypy wrote to its standard
    output, the text it wrote to its standard error, and its exit
    status. *)
Definition report : Type := pystr * pystr * Z.

(** The exceptions, as far as [except ImportError] tells them apart:
    [ImportError] is an [ImportError] or one of its subclasses
    ([ModuleNotFoundError]); [OtherException] is any exception that is
    not one, by the name of its class. *)
Inductive exception : Type :=
| ImportError
| OtherException (name : string).

(** How a call ends: with a value, or with an exception raised to the
    caller. *)
Inductive outcome (A : Type) : Type :=
| Return (a : A)
| Raise (e : exception).
Arguments Return {A} a.
Arguments Raise {A} e.

(** The callable [run] of [mypy.api]. *)
Definition capability : Type := list pystr -> outcome report.

(** The environment of the notebook, by what [from mypy.api import run]
    does in it: [Return run] when the import binds [run];
    [Raise ImportError] when mypy is not installed (or has no [run]);
    [Raise e] for another [e] when importing mypy fails in another way,
    as with a [SyntaxError] in a damaged installation. *)
Definition mypy_api : Type := outcome capability.

(** What the magic does that can be seen from outside, in the order it
    happens: [Print s] is one call [print(s)], which writes [s] and a
    newline; [Run args] is one call [run(args)]. *)
Inductive event : Type :=
| Print (text : pystr)
| Run (args : list pystr).

Definition trace : Type := list event.

(** The objects a call of the magic can hand back to the notebook:
    [None], which a function returns when it ends without a [return],
    a [str] or an [int]. *)
Inductive value : Type :=
| NoneValue
| Str (s : pystr)
| Int (z : Z).

(** Statements run on the trace so far and either yield a value or
    raise. *)
Definition IO (A : Type) : Type := trace -> outcome A * trace.

#[export] Instance IO_ret : MRet IO :=
  fun A (a : A) t => (Return a, t).

#[export] Instance IO_bind : MBind IO :=
  fun A B (k : A -> IO B) (m : IO A) t =>
    match m t with
    | (Return a, t') => k a t'
    | (Raise e, t') => (Raise e, t')
    end.

Definition print (s : pystr) : IO unit :=
  fun t => (Return tt, t ++ [Print s]).

(** [from mypy.api import run] *)
Definition import_run (api : mypy_api) : IO capability :=
  fun t => (api, t).

(** [run(args)] *)
Definition call (run : capability) (args : list pystr) : IO report :=
  fun t => (run args, t ++ [Run args]).

(** [try: body / except ImportError: return handler], followed by the
    rest of the function when [body] did not raise.  Any other
    exception leaves the function. *)
Definition try_except_ImportError {A B}
    (body : IO A) (handler : IO B) (rest : A -> IO B) : IO B :=
  fun t =>
    match body t with
    | (Return a, t') => rest a t'
    | (Raise ImportError, t') => handler t'
    | (Raise e, t') => (Raise e, t')
    end.

(** [if cond: body] *)
Definition when (cond : bool) (body : IO unit) : IO unit :=
  if cond then body else mret tt.

Definition not_installed : pystr :=
  py "'mypy' not installed. Did you run 'pip install mypy'?".

(** ['\nType checking report:\n'] and ['\nError report:\n'] *)
Definition type_checking_header : pystr :=
  nl ++ py "Type checking report:" ++ nl.
Definition error_header : pystr :=
  nl ++ py "Error report:" ++ nl.

(** The cell magic.  [@register_cell_magic('mypy')] enters it in the
    notebook under the name [mypy] and leaves the function as it is; the
    notebook then calls it with the rest of the [%%mypy] line and the
    body of the cell. *)
Definition typechecker (api : mypy_api) (line cell : pystr) : IO value :=
  try_except_ImportError (import_run api)
    (mret (Str not_installed))
    (fun run =>
       let args := [] in
       let args := if truthy line then split line else args in
       result ← call run ([py "-c"; cell] ++ args);
       when (truthy result.1.1)
         (print type_checking_header;;
          print result.1.1);;
       when (truthy result.1.2)
         (print error_header;;
          print result.1.2);;
       mret (Int result.2)).

(** The arguments of the calls of [run] in a trace, and the texts of
    its [print]s. *)
Definition invocations (t : trace) : list (list pystr) :=
  omap (fun e => match e with Run args => Some args | Print _ => None end) t.

Definition printed (t : trace) : list pystr :=
  omap (fun e => match e with Print s => Some s | Run _ => None end) t.

(** One section of the report as [print] calls: the header and the
    text, or nothing for an empty text. *)
Definition report_section (header text : pystr) : list pystr :=
  if truthy text then [header; text] else [].

(** The text on the standard output after the [print]s of a trace. *)
Definition stdout_text (t : trace) : pystr :=
  concat (map (fun s => s ++ nl) (printed t)).

(** Two stand-ins for [run], used to exercise the magic: a check that
    reports a summary and findings, and a clean one. *)
Definition run_ok_summary : capability :=
  fun _ => Return (py "ok summary", [], 1).
Definition run_clean : capability :=
  fun _ => Return ([], [], 0).

(** A [run] that fails with an [ImportError] of its own, as when mypy
    is installed but one of the modules it loads on demand is not. *)
Definition run_broken : capability :=
  fun _ => Raise ImportError.

End MyPyCheck.

(** ** mytuples.py *)

Module MyTuples.

(** The type objects the annotations name. *)
Inductive type_object : Type :=
| int
| tuple.

(** A [tuple] of [int]s, by its items in order.  It is a value: nothing
    updates it once it is built. *)
Definition int_tuple : Type := list Z.

(** [tuple(iterable)]: a tuple of the items of [iterable], in order. *)
Definition tuple_ (iterable : list Z) : int_tuple := iterable.

(** The header of a [def]: each parameter with its annotation, when it
    has one, and the annotation of the result. *)
Record signature : Type := {
  parameters : list (string * option type_object);
  returns : option type_object
}.

(** A function object of three [int] parameters. *)
Record function : Type := {
  __name__ : string;
  __signature__ : signature;
  __call__ : Z -> Z -> Z -> int_tuple
}.

(** [f.__annotations__]: the annotated parameters in the order of the
    header, then the key ["return"] when the result is annotated. *)
Definition __annotations__ (f : function) : list (string * type_object) :=
  omap (fun p => pair p.1 <$> p.2) (parameters (__signature__ f))
  ++ match returns (__signature__ f) with
     | Some r => [("return"%string, r)]
     | None => []
     end.

(** [d[key]] on an annotation dict. *)
Fixpoint getitem (d : list (string * type_object)) (key : string)
    : option type_object :=
  match d with
  | [] => None
  | (k, v) :: d' => if String.eqb k key then Some v else getitem d' key
  end.

(** Lines 9-10: [def my_tuple0(a: int, b: int, c:int) -> tuple]. *)
Definition my_tuple0 : function := {|
  __name__ := "my_tuple0";
  __signature__ := {|
    parameters := [("a"%string, Some int); ("b"%string, Some int);
                   ("c"%string, Some int)];
    returns := Some tuple
  |};
  __call__ := fun a b c => tuple_ [a; b; c]
|}.

(** Lines 19-20: the same [def] once more, after the cell marker. *)
Definition my_tuple0' : function := {|
  __name__ := "my_tuple0";
  __signature__ := {|
    parameters := [("a"%string, Some int); ("b"%string, Some int);
                   ("c"%string, Some int)];
    returns := Some tuple
  |};
  __call__ := fun a b c => tuple_ [a; b; c]
|}.

(** [repr] of a tuple of ints: ["()"], ["(x,)"], ["(x, y, ...)"]. *)
Definition repr_tuple (items : int_tuple) : pystr :=
  match items with
  | [x] => py "(" ++ str_int x ++ py ",)"
  | _ => py "(" ++ join (py ", ") (map str_int items) ++ py ")"
  end.

Definition repr_type (t : type_object) : pystr :=
  match t with
  | int => py "<class 'int'>"
  | tuple => py "<class 'tuple'>"
  end.

(** [repr] of an annotation dict.  Its keys are parameter names and
    ["return"], identifiers, which [repr] puts between single quotes
    unchanged. *)
Definition repr_annotations (d : list (string * type_object)) : pystr :=
  py "{"
  ++ join (py ", ")
       (map (fun kv => py "'" ++ py kv.1 ++ py "': " ++ repr_type kv.2) d)
  ++ py "}".

(** The global names of the module; [None] is a name not bound yet. *)
Record namespace : Type := {
  g_my_tuple0 : option function;
  g_t47_5 : option int_tuple
}.

(** The state of the running script: its globals and the texts of the
    [print] calls so far (each one is written with a newline after
    it). *)
Record state : Type := {
  globals : namespace;
  stdout : list pystr
}.

Inductive exception : Type :=
| NameError (name : string).

Definition Script (A : Type) : Type := state -> (exception + A) * state.

#[export] Instance Script_ret : MRet Script :=
  fun A (a : A) st => (inr a, st).

#[export] Instance Script_bind : MBind Script :=
  fun A B (k : A -> Script B) (m : Script A) st =>
    match m st with
    | (inr a, st') => k a st'
    | (inl e, st') => (inl e, st')
    end.

(** [def my_tuple0 ...] binds the name to the new function object. *)
Definition bind_my_tuple0 (f : function) : Script unit :=
  fun st =>
    (inr tt, {| globals := {| g_my_tuple0 := Some f;
                              g_t47_5 := g_t47_5 (globals st) |};
                stdout := stdout st |}).

(** [t47_5 = t] *)
Definition bind_t47_5 (t : int_tuple) : Script unit :=
  fun st =>
    (inr tt, {| globals := {| g_my_tuple0 := g_my_tuple0 (globals st);
                              g_t47_5 := Some t |};
                stdout := stdout st |}).

(** Reading the global names. *)
Definition load_my_tuple0 : Script function :=
  fun st =>
    match g_my_tuple0 (globals st) with
    | Some f => (inr f, st)
    | None => (inl (NameError "my_tuple0"), st)
    end.

Definition load_t47_5 : Script int_tuple :=
  fun st =>
    match g_t47_5 (globals st) with
    | Some t => (inr t, st)
    | None => (inl (NameError "t47_5"), st)
    end.

(** [print(x, y)]: the two texts with one space between them. *)
Definition print (x y : pystr) : Script unit :=
  fun st =>
    (inr tt, {| globals := globals st;
                stdout := stdout st ++ [join (py " ") [x; y]] |}).

(** Lines 13-15 and 23-25: call the function, print the tuple, print
    the annotations. *)
Definition demo : Script unit :=
  f ← load_my_tuple0;
  bind_t47_5 (__call__ f 4 7 (-5));;
  t47_5 ← load_t47_5;
  print (py "A tuple of int: ") (repr_tuple t47_5);;
  f ← load_my_tuple0;
  print (py "Type annotations of my_tuple function: " ++ nl)
        (repr_annotations (__annotations__ f)).

(** The whole file, top to bottom. *)
Definition script : Script unit :=
  bind_my_tuple0 my_tuple0;;
  demo;;
  bind_my_tuple0 my_tuple0';;
  demo.



(** The two lines every run of the demo prints. *)
Definition tuple_line : pystr := py "A tuple of int:  (4, 7, -5)".
Definition annotations_line : pystr :=
  py "Type annotations of my_tuple function: " ++ nl
  ++ py " {'a': <class 'int'>, 'b': <class 'int'>, 'c': <class 'int'>, 'return': <class 'tuple'>}".

End MyTuples.

(** ** Facts about [str.split] *)

Module PyFacts.

Lemma split_from_blank ws s :
  blank ws -> split_from [] (ws ++ s) = split_from [] s.
Proof.
  induction 1 as [|c ws Hc _ IH]; simpl; [reflexivity|].
  rewrite Hc. exact IH.
Qed.

Lemma split_from_solid token word rest :
  solid token -> split_from word (token ++ rest) = split_from (rev token ++ word) rest.
Proof.
  intros H. revert word.
  induction H as [|c token Hc _ IH]; intros word; simpl; [reflexivity|].
  rewrite Hc, IH, <- app_assoc. reflexivity.
Qed.

Lemma split_from_token_ends word rest :
  word <> [] -> token_ends rest -> split_from word rest = rev word :: split rest.
Proof.
  intros Hw Hr. destruct word as [|c word]; [congruence|].
  destruct rest as [|d rest]; simpl in *; [reflexivity|].
  unfold split. simpl. rewrite Hr. reflexivity.
Qed.

(** The relation determines the tokens, and they are those of [split]. *)
Lemma splits_into_split s tokens : splits_into s tokens -> split s = tokens.
Proof.
  induction 1 as [ws Hws|ws token rest tokens Hws Hne Hsolid Hends _ IH].
  - unfold split. rewrite <- (app_nil_r ws), split_from_blank by assumption.
    reflexivity.
  - unfold split. rewrite split_from_blank by assumption.
    rewrite split_from_solid by assumption. rewrite app_nil_r.
    rewrite split_from_token_ends; [|destruct token; simpl; [congruence|]|assumption].
    + rewrite rev_involutive, IH. reflexivity.
    + intros E. apply app_eq_nil in E. destruct E as [_ E]. discriminate E.
Qed.

Lemma splits_into_cons_space c s tokens :
  isspace c = true -> splits_into s tokens -> splits_into (c :: s) tokens.
Proof.
  intros Hc H. destruct H as [ws Hws|ws token rest tokens Hws Hne Hsolid Hends H].
  - apply splits_blank. constructor; assumption.
  - change (c :: ws ++ token ++ rest) with ((c :: ws) ++ token ++ rest).
    apply splits_token; try assumption. constructor; assumption.
Qed.

Lemma rev_cons_not_nil (d : N) (word : pystr) : rev (d :: word) <> [].
Proof.
  simpl. intros E. apply app_eq_nil in E. destruct E as [_ E]. discriminate E.
Qed.

Lemma split_from_splits_into s :
  forall word, solid word -> splits_into (rev word ++ s) (split_from word s).
Proof.
  induction s as [|c s IH]; intros word Hword.
  - destruct word as [|d word].
    + apply splits_blank. constructor.
    + apply (splits_token [] (rev (d :: word)) [] []).
      * constructor.
      * apply rev_cons_not_nil.
      * apply Forall_rev. exact Hword.
      * exact I.
      * apply splits_blank. constructor.
  - cbn [split_from]. destruct (isspace c) eqn:Hc.
    + assert (Hrest : splits_into (c :: s) (split_from [] s)).
      { apply splits_into_cons_space; [exact Hc|].
        apply (IH []). constructor. }
      destruct word as [|d word]; [exact Hrest|].
      apply (splits_token [] (rev (d :: word)) (c :: s)).
      * constructor.
      * apply rev_cons_not_nil.
      * apply Forall_rev. exact Hword.
      * exact Hc.
      * exact Hrest.
    + specialize (IH (c :: word)). simpl in IH. rewrite <- app_assoc in IH.
      apply IH. constructor; assumption.
Qed.

(** Every text splits, into the tokens [split] returns. *)
Lemma split_splits_into s : splits_into s (split s).
Proof. apply (split_from_splits_into s []). constructor. Qed.

Lemma split_spec s tokens : splits_into s tokens <-> split s = tokens.
Proof.
  split; [apply splits_into_split|].
  intros <-. apply split_splits_into.
Qed.

Lemma forallb_isspace_blank s : forallb isspace s = true -> blank s.
Proof.
  induction s as [|c s IH]; simpl; intros H; [constructor|].
  apply andb_prop in H. destruct H as [Hc Hs].
  constructor; [exact Hc|exact (IH Hs)].
Qed.

Lemma split_blank s : forallb isspace s = true -> split s = [].
Proof.
  intros H. apply splits_into_split, splits_blank, forallb_isspace_blank, H.
Qed.

Lemma splits_into_tokens s tokens :
  splits_into s tokens -> Forall is_token tokens.
Proof.
  induction 1 as [ws Hws|ws token rest tokens Hws Hne Hsolid Hends _ IH].
  - constructor.
  - constructor; [split; assumption | exact IH].
Qed.

Lemma filter_blank ws :
  blank ws -> List.filter (fun c => negb (isspace c)) ws = [].
Proof.
  induction 1 as [|c ws Hc _ IH]; simpl; [reflexivity|].
  rewrite Hc. exact IH.
Qed.

Lemma filter_solid token :
  solid token -> List.filter (fun c => negb (isspace c)) token = token.
Proof.
  induction 1 as [|c token Hc _ IH]; simpl; [reflexivity|].
  rewrite Hc. simpl. rewrite IH. reflexivity.
Qed.

Lemma splits_into_concat s tokens :
  splits_into s tokens ->
  concat tokens = List.filter (fun c => negb (isspace c)) s.
Proof.
  induction 1 as [ws Hws|ws token rest tokens Hws Hne Hsolid Hends _ IH].
  - rewrite filter_blank by assumption. reflexivity.
  - rewrite !List.filter_app, filter_blank, filter_solid by assumption.
    simpl. rewrite IH. reflexivity.
Qed.

Lemma blank_forallb_isspace s : blank s -> forallb isspace s = true.
Proof.
  induction 1 as [|c s Hc _ IH]; simpl; [reflexivity|].
  rewrite Hc. exact IH.
Qed.

Lemma split_nil_iff s : split s = [] <-> forallb isspace s = true.
Proof.
  split; [|apply split_blank].
  intros H. pose proof (split_splits_into s) as Hs. rewrite H in Hs.
  inversion Hs as [ws Hws E1 E2|]. apply blank_forallb_isspace. exact Hws.
Qed.

Lemma splits_into_app_blank ws s tokens :
  blank ws -> splits_into s tokens -> splits_into (ws ++ s) tokens.
Proof.
  intros Hws Hs. induction Hws as [|c ws Hc _ IH]; [exact Hs|].
  simpl. apply splits_into_cons_space; assumption.
Qed.

Lemma token_ends_separator sep rest :
  blank sep -> sep <> [] -> token_ends (sep ++ rest).
Proof.
  intros Hsep Hne. destruct Hsep as [|c sep Hc _]; [congruence | exact Hc].
Qed.

Lemma splits_into_join sep tokens :
  blank sep -> sep <> [] -> Forall is_token tokens ->
  splits_into (join sep tokens) tokens.
Proof.
  intros Hsep Hne. induction 1 as [|token tokens [Htok Hsolid] Htokens IH].
  - apply splits_blank. constructor.
  - destruct tokens as [|next tokens].
    + pose proof (splits_token [] token [] [] (List.Forall_nil _) Htok Hsolid I
                    (splits_blank [] (List.Forall_nil _))) as H.
      simpl in H. rewrite app_nil_r in H. exact H.
    + change (join sep (token :: next :: tokens))
        with ([] ++ token ++ sep ++ join sep (next :: tokens)).
      apply splits_token; try assumption.
      * constructor.
      * apply token_ends_separator; assumption.
      * apply splits_into_app_blank; assumption.
Qed.

Lemma splits_into_app s t sep tokens tokens' :
  blank sep -> sep <> [] ->
  splits_into s tokens -> splits_into t tokens' ->
  splits_into (s ++ sep ++ t) (tokens ++ tokens').
Proof.
  intros Hsep Hne Hs Ht.
  induction Hs as [ws Hws|ws token rest tokens Hws Htok Hsolid Hends _ IH].
  - simpl. apply splits_into_app_blank; [exact Hws|].
    apply splits_into_app_blank; assumption.
  - rewrite <- !app_assoc. simpl. apply splits_token; try assumption.
    destruct rest as [|c rest]; [|exact Hends].
    simpl. apply token_ends_separator; assumption.
Qed.

(** Joining tokens with whitespace and splitting again gives them
    back. *)
Lemma split_join sep tokens :
  blank sep -> sep <> [] -> Forall is_token tokens ->
  split (join sep tokens) = tokens.
Proof.
  intros Hsep Hne Htokens. apply splits_into_split, splits_into_join; assumption.
Qed.

(** The tokens of two texts with whitespace between them are those of
    the first followed by those of the second. *)
Lemma split_app s sep t :
  blank sep -> sep <> [] -> split (s ++ sep ++ t) = split s ++ split t.
Proof.
  intros Hsep Hne. apply splits_into_split, splits_into_app; try assumption;
    apply split_splits_into.
Qed.

Example split_keeps_order :
  split (py "  --strict   extra ") = [py "--strict"; py "extra"].
Proof. reflexivity. Qed.

Example str_int_signs :
  (str_int 0, str_int 4, str_int (-5), str_int 120)
  = (py "0", py "4", py "-5", py "120").
Proof. reflexivity. Qed.

End PyFacts.

(** ** Facts about the cell magic *)

Module MyPyCheckFacts.
Import MyPyCheck.

Lemma option_tokens line : (if truthy line then split line else []) = split line.
Proof. destruct line; reflexivity. Qed.

(** With [mypy] installed the magic calls [run] once and then prints
    the two sections of the report, unless [run] raises. *)
Lemma typechecker_available run line cell t :
  typechecker (Return run) line cell t =
  match run ([py "-c"; cell] ++ split line) with
  | Return (out, err, status) =>
      (Return (Int status),
       t ++ [Run ([py "-c"; cell] ++ split line)]
         ++ map Print (report_section type_checking_header out
                       ++ report_section error_header err))
  | Raise e => (Raise e, t ++ [Run ([py "-c"; cell] ++ split line)])
  end.
Proof.
  unfold typechecker, try_except_ImportError, import_run.
  unfold mbind, IO_bind, call. cbv zeta. rewrite option_tokens.
  destruct (run ([py "-c"; cell] ++ split line)) as [[[out err] status]|e];
    [|reflexivity].
  destruct out, err; cbn; rewrite <- ?app_assoc; reflexivity.
Qed.

Lemma invocations_app t u : invocations (t ++ u) = invocations t ++ invocations u.
Proof. apply omap_app. Qed.

Lemma printed_app t u : printed (t ++ u) = printed t ++ printed u.
Proof. apply omap_app. Qed.

Lemma invocations_prints l : invocations (map Print l) = [].
Proof. induction l; [reflexivity | assumption]. Qed.

Lemma printed_prints l : printed (map Print l) = l.
Proof. induction l as [|x l IH]; [reflexivity|]. cbn. f_equal. exact IH. Qed.

Lemma typechecker_invocations run line cell t :
  invocations (typechecker (Return run) line cell t).2
  = invocations t ++ [[py "-c"; cell] ++ split line].
Proof.
  rewrite typechecker_available.
  destruct (run _) as [[[out err] status]|e]; cbn [snd];
    rewrite !invocations_app, ?invocations_prints, ?app_nil_r; reflexivity.
Qed.

Lemma typechecker_printed run line cell t out err status :
  run ([py "-c"; cell] ++ split line) = Return (out, err, status) ->
  printed (typechecker (Return run) line cell t).2
  = printed t ++ report_section type_checking_header out
              ++ report_section error_header err.
Proof.
  intros Hrun. rewrite typechecker_available, Hrun. cbn [snd].
  rewrite !printed_app, printed_prints. reflexivity.
Qed.

Lemma report_section_empty header : report_section header [] = [].
Proof. reflexivity. Qed.

Lemma report_section_text header text :
  text <> [] -> report_section header text = [header; text].
Proof. destruct text; [congruence | reflexivity]. Qed.

(** C1. When [mypy.api] cannot be imported, [typechecker] returns, for
    every line and cell, the message ['mypy' not installed. Did you run
    'pip install mypy'?], which contains ["mypy"] and
    ["pip install mypy"]; it leaves the trace as it found it (no
    [print], no call of [run]) and it ends with a value, not with the
    [ImportError]. *)
Theorem typechecker_mypy_missing (line cell : pystr) (t : trace) :
  typechecker (Raise ImportError) line cell t = (Return (Str not_installed), t)
  /\ contains not_installed (py "mypy") = true
  /\ contains not_installed (py "pip install mypy") = true.
Proof. repeat split. Qed.

(** C2. With [mypy] installed, [typechecker] calls [run] exactly once,
    with ["-c"], the cell, and then the tokens the line splits into on
    whitespace, in the order of the line; for the empty line there is
    no token; and [typechecker("--strict extra", "x = 1")] calls
    [run(["-c", "x = 1", "--strict", "extra"])]. *)
Theorem typechecker_run_arguments :
  (forall run line cell t,
      exists tokens,
        splits_into line tokens
        /\ invocations (typechecker (Return run) line cell t).2
           = invocations t ++ [[py "-c"; cell] ++ tokens])
  /\ (forall run cell t,
         invocations (typechecker (Return run) [] cell t).2
         = invocations t ++ [[py "-c"; cell]])
  /\ (forall run t,
         invocations
           (typechecker (Return run) (py "--strict extra") (py "x = 1") t).2
         = invocations t ++ [[py "-c"; py "x = 1"; py "--strict"; py "extra"]]).
Proof.
  split; [|split].
  - intros run line cell t. exists (split line). split.
    + apply PyFacts.split_splits_into.
    + apply typechecker_invocations.
  - intros run cell t. apply typechecker_invocations.
  - intros run t. apply typechecker_invocations.
Qed.

(** C3. When [run] returns [(out, err, status)], [typechecker] prints
    the header ['\nType checking report:\n'] and then [out] exactly
    when [out] is not empty, and after that the header
    ['\nError report:\n'] and then [err] exactly when [err] is not
    empty; it prints nothing else. *)
Theorem typechecker_prints_reports
    (run : capability) (line cell : pystr) (t : trace)
    (out err : pystr) (status : Z) :
  run ([py "-c"; cell] ++ split line) = Return (out, err, status) ->
  exists out_section err_section,
    (typechecker (Return run) line cell t).2
    = t ++ [Run ([py "-c"; cell] ++ split line)]
        ++ map Print (out_section ++ err_section)
    /\ (out <> [] ->
        out_section = [nl ++ py "Type checking report:" ++ nl; out])
    /\ (out = [] -> out_section = [])
    /\ (err <> [] ->
        err_section = [nl ++ py "Error report:" ++ nl; err])
    /\ (err = [] -> err_section = []).
Proof.
  intros Hrun.
  exists (report_section type_checking_header out),
         (report_section error_header err).
  split.
  - rewrite typechecker_available, Hrun. reflexivity.
  - repeat split.
    + apply (report_section_text type_checking_header).
    + intros ->. reflexivity.
    + apply (report_section_text error_header).
    + intros ->. reflexivity.
Qed.

(** A report with the summary ["ok summary"], no error text and status
    [1]: the header and the summary are printed, the error header is
    not. *)
Lemma typechecker_prints_reports_ok_summary :
  run_ok_summary ([py "-c"; py "x = 1"] ++ split [])
  = Return (py "ok summary", [], 1)
  /\ printed (typechecker (Return run_ok_summary) [] (py "x = 1") []).2
     = [nl ++ py "Type checking report:" ++ nl; py "ok summary"]
  /\ ~ In (nl ++ py "Error report:" ++ nl)
         (printed (typechecker (Return run_ok_summary) [] (py "x = 1") []).2).
Proof.
  assert (Hrun : run_ok_summary ([py "-c"; py "x = 1"] ++ split [])
                 = Return (py "ok summary", [], 1)) by reflexivity.
  destruct (typechecker_prints_reports run_ok_summary [] (py "x = 1") []
              (py "ok summary") [] 1 Hrun)
    as (out_section & err_section & Htrace & Hout & _ & _ & Herr).
  assert (Hprinted :
            printed (typechecker (Return run_ok_summary) [] (py "x = 1") []).2
            = [nl ++ py "Type checking report:" ++ nl; py "ok summary"]).
  { rewrite Htrace, Hout, Herr; [reflexivity | reflexivity | discriminate]. }
  split; [exact Hrun|]. split; [exact Hprinted|].
  rewrite Hprinted. simpl. intros [E|[E|[]]]; discriminate E.
Defined.

(** C4. When [run] returns [(out, err, status)], [typechecker] returns
    the integer [status]; when both texts are empty it prints
    nothing. *)
Theorem typechecker_returns_status
    (run : capability) (line cell : pystr) (t : trace)
    (out err : pystr) (status : Z) :
  run ([py "-c"; cell] ++ split line) = Return (out, err, status) ->
  (typechecker (Return run) line cell t).1 = Return (Int status)
  /\ (out = [] -> err = [] ->
      printed (typechecker (Return run) line cell t).2 = printed t).
Proof.
  intros Hrun. split.
  - rewrite typechecker_available, Hrun. reflexivity.
  - intros -> ->. rewrite (typechecker_printed _ _ _ _ _ _ _ Hrun).
    rewrite !report_section_empty, !app_nil_r. reflexivity.
Qed.

(** A report with two empty texts and status [0]: nothing printed, [0]
    returned. *)
Lemma typechecker_returns_status_clean :
  run_clean ([py "-c"; py "x = 1"] ++ split (py "--strict")) = Return ([], [], 0)
  /\ (typechecker (Return run_clean) (py "--strict") (py "x = 1") []).1
     = Return (Int 0)
  /\ printed (typechecker (Return run_clean) (py "--strict") (py "x = 1") []).2
     = [].
Proof.
  assert (Hrun : run_clean ([py "-c"; py "x = 1"] ++ split (py "--strict"))
                 = Return ([], [], 0)) by reflexivity.
  destruct (typechecker_returns_status run_clean (py "--strict") (py "x = 1") []
              [] [] 0 Hrun) as [Hret Hquiet].
  split; [exact Hrun|]. split; [exact Hret|].
  apply Hquiet; reflexivity.
Defined.

(** C5. The result of [typechecker] is a [str] exactly when importing
    [mypy.api] raises [ImportError], and an [int] exactly when the import
    binds [run] and [run] returns a report; it is never anything else,
    [None] included.  When there is no result an exception is passed
    on: the one the import raised, if it is not an [ImportError], or the
    one [run] raised. *)
Theorem typechecker_result_shape (api : mypy_api) (line cell : pystr) (t : trace) :
  ((exists s, (typechecker api line cell t).1 = Return (Str s))
   <-> api = Raise ImportError)
  /\ ((exists z, (typechecker api line cell t).1 = Return (Int z))
      <-> (exists run out err status,
              api = Return run
              /\ run ([py "-c"; cell] ++ split line) = Return (out, err, status)))
  /\ (forall v, (typechecker api line cell t).1 = Return v ->
                (exists s, v = Str s) \/ (exists z, v = Int z))
  /\ (forall e, (typechecker api line cell t).1 = Raise e ->
                (api = Raise e /\ e <> ImportError)
                \/ (exists run,
                       api = Return run
                       /\ run ([py "-c"; cell] ++ split line) = Raise e)).
Proof.
  destruct api as [run|[|name]].
  - rewrite typechecker_available.
    destruct (run ([py "-c"; cell] ++ split line)) as [[[out err] status]|e] eqn:Hrun;
      cbn [fst].
    + split; [|split; [|split]].
      * split; [intros [s Hs]; discriminate Hs | discriminate].
      * split; [|intros _; exists status; reflexivity].
        intros _. exists run, out, err, status. split; [reflexivity | exact Hrun].
      * intros v Hv. injection Hv as <-. right. exists status. reflexivity.
      * intros e He. discriminate He.
    + split; [|split; [|split]].
      * split; [intros [s Hs]; discriminate Hs | discriminate].
      * split; [intros [z Hz]; discriminate Hz|].
        intros (run' & out & err & status & Hsome & Hrun').
        injection Hsome as <-. rewrite Hrun in Hrun'. discriminate Hrun'.
      * intros v Hv. discriminate Hv.
      * intros e' He'. injection He' as <-. right. exists run.
        split; [reflexivity | exact Hrun].
  - split; [|split; [|split]].
    + split; [reflexivity | intros _; exists not_installed; reflexivity].
    + split; [intros [z Hz]; discriminate Hz|].
      intros (run & _ & _ & _ & Hsome & _). discriminate Hsome.
    + intros v Hv. injection Hv as <-. left. exists not_installed. reflexivity.
    + intros e He. discriminate He.
  - split; [|split; [|split]].
    + split; [intros [s Hs]; discriminate Hs | discriminate].
    + split; [intros [z Hz]; discriminate Hz|].
      intros (run & _ & _ & _ & Hsome & _). discriminate Hsome.
    + intros v Hv. discriminate Hv.
    + intros e He. injection He as <-. left. split; [reflexivity | discriminate].
Qed.

(** C9. For a given line, cell and environment, what [typechecker]
    returns and what it adds to the trace do not depend on the trace it
    starts from: any two calls end alike and add the same events, so
    they print the same text. *)
Theorem typechecker_deterministic
    (api : mypy_api) (line cell : pystr) (t t' : trace) :
  exists result added,
    typechecker api line cell t = (result, t ++ added)
    /\ typechecker api line cell t' = (result, t' ++ added)
    /\ stdout_text (typechecker api line cell t').2
       = stdout_text t' ++ stdout_text added.
Proof.
  assert (Htext : forall u v, stdout_text (u ++ v) = stdout_text u ++ stdout_text v).
  { intros u v. unfold stdout_text. rewrite printed_app, map_app, concat_app.
    reflexivity. }
  destruct api as [run|[|name]].
  - rewrite !typechecker_available.
    destruct (run ([py "-c"; cell] ++ split line)) as [[[out err] status]|e].
    + eexists _, _. split; [reflexivity|]. split; [reflexivity|]. apply Htext.
    + eexists _, _. split; [reflexivity|]. split; [reflexivity|]. apply Htext.
  - exists (Return (Str not_installed)), [].
    split; [rewrite app_nil_r; reflexivity|].
    split; [rewrite app_nil_r; reflexivity|].
    rewrite <- Htext, app_nil_r. reflexivity.
  - exists (Raise (OtherException name)), [].
    split; [rewrite app_nil_r; reflexivity|].
    split; [rewrite app_nil_r; reflexivity|].
    rewrite <- Htext, app_nil_r. reflexivity.
Qed.

(** C10. For a line that is not empty but holds whitespace only,
    [typechecker] does what it does for the empty line: it calls [run]
    with ["-c"] and the cell and nothing more. *)
Theorem typechecker_blank_line
    (run : capability) (line cell : pystr) (t : trace) :
  line <> [] ->
  forallb isspace line = true ->
  invocations (typechecker (Return run) line cell t).2
  = invocations t ++ [[py "-c"; cell]]
  /\ typechecker (Return run) line cell t = typechecker (Return run) [] cell t.
Proof.
  intros _ Hblank. split.
  - rewrite typechecker_invocations, (PyFacts.split_blank line Hblank).
    reflexivity.
  - rewrite !typechecker_available, (PyFacts.split_blank line Hblank).
    reflexivity.
Qed.

(** A line of a space, a tab and an ideographic space. *)
Lemma typechecker_blank_line_spaces :
  ([32; 9; 12288]%N : pystr) <> []
  /\ forallb isspace [32; 9; 12288]%N = true
  /\ invocations (typechecker (Return run_clean) [32; 9; 12288]%N (py "x = 1") []).2
     = [[py "-c"; py "x = 1"]].
Proof.
  assert (Hne : ([32; 9; 12288]%N : pystr) <> []) by discriminate.
  assert (Hblank : forallb isspace [32; 9; 12288]%N = true) by reflexivity.
  split; [exact Hne|]. split; [exact Hblank|].
  exact (proj1 (typechecker_blank_line run_clean [32; 9; 12288]%N (py "x = 1") []
                  Hne Hblank)).
Defined.

(** *** Further properties of the magic *)

Lemma stdout_text_app t u : stdout_text (t ++ u) = stdout_text t ++ stdout_text u.
Proof.
  unfold stdout_text. rewrite printed_app, map_app, concat_app. reflexivity.
Qed.

(** X1. The [try] covers the import only: an exception [run] raises,
    an [ImportError] included, leaves [typechecker] as it is, after the
    one call of [run] and before any [print]; it is not turned into the
    message about the missing mypy. *)
Theorem typechecker_run_raises
    (run : capability) (line cell : pystr) (t : trace) (e : exception) :
  run ([py "-c"; cell] ++ split line) = Raise e ->
  typechecker (Return run) line cell t
  = (Raise e, t ++ [Run ([py "-c"; cell] ++ split line)]).
Proof.
  intros Hrun. rewrite typechecker_available, Hrun. reflexivity.
Qed.

Lemma typechecker_run_raises_import_error :
  run_broken ([py "-c"; py "x = 1"] ++ split (py "--strict")) = Raise ImportError
  /\ typechecker (Return run_broken) (py "--strict") (py "x = 1") []
     = (Raise ImportError, [Run [py "-c"; py "x = 1"; py "--strict"]])
  /\ (typechecker (Return run_broken) (py "--strict") (py "x = 1") []).1
     <> Return (Str not_installed).
Proof.
  assert (Hrun : run_broken ([py "-c"; py "x = 1"] ++ split (py "--strict"))
                 = Raise ImportError) by reflexivity.
  pose proof (typechecker_run_raises run_broken (py "--strict") (py "x = 1") []
                ImportError Hrun) as H.
  split; [exact Hrun|]. split; [exact H|].
  rewrite H. discriminate.
Defined.

(** X8. [except ImportError] catches nothing else: when importing
    [mypy.api] raises an exception that is not an [ImportError],
    [typechecker] raises it to the caller, without a call of [run] and
    without a [print], and does not return the message about the
    missing mypy. *)
Theorem typechecker_import_raises
    (e : exception) (line cell : pystr) (t : trace) :
  e <> ImportError ->
  typechecker (Raise e) line cell t = (Raise e, t).
Proof.
  intros He. destruct e as [|name]; [congruence | reflexivity].
Qed.

Lemma typechecker_import_raises_syntax_error :
  OtherException "SyntaxError" <> ImportError
  /\ typechecker (Raise (OtherException "SyntaxError")) (py "--strict")
       (py "x = 1") []
     = (Raise (OtherException "SyntaxError"), []).
Proof.
  assert (He : OtherException "SyntaxError" <> ImportError) by discriminate.
  split; [exact He|].
  exact (typechecker_import_raises (OtherException "SyntaxError") (py "--strict")
           (py "x = 1") [] He).
Defined.

(** X2. The text the magic writes on the standard output when [run]
    returns [(out, err, status)]: for a text that is not empty, a blank
    line, the title, a blank line, the text and a newline; first for
    [out], then for [err]. *)
Theorem typechecker_stdout_text
    (run : capability) (line cell : pystr) (t : trace)
    (out err : pystr) (status : Z) :
  run ([py "-c"; cell] ++ split line) = Return (out, err, status) ->
  stdout_text (typechecker (Return run) line cell t).2
  = stdout_text t
    ++ (if truthy out
        then nl ++ py "Type checking report:" ++ nl ++ nl ++ out ++ nl
        else [])
    ++ (if truthy err
        then nl ++ py "Error report:" ++ nl ++ nl ++ err ++ nl
        else []).
Proof.
  intros Hrun. rewrite typechecker_available, Hrun. cbn [snd].
  rewrite (stdout_text_app t). f_equal.
  destruct out, err; cbn; rewrite <- ?app_assoc, ?app_nil_r; reflexivity.
Qed.

Lemma typechecker_stdout_text_ok_summary :
  run_ok_summary ([py "-c"; py "x = 1"] ++ split [])
  = Return (py "ok summary", [], 1)
  /\ stdout_text (typechecker (Return run_ok_summary) [] (py "x = 1") []).2
     = nl ++ py "Type checking report:" ++ nl ++ nl ++ py "ok summary" ++ nl.
Proof.
  assert (Hrun : run_ok_summary ([py "-c"; py "x = 1"] ++ split [])
                 = Return (py "ok summary", [], 1)) by reflexivity.
  split; [exact Hrun|].
  rewrite (typechecker_stdout_text run_ok_summary [] (py "x = 1") []
             (py "ok summary") [] 1 Hrun).
  reflexivity.
Defined.

(** X3. The options [run] receives after the cell are the line cut at
    its whitespace and nowhere else (each option starts after
    whitespace or at the start of the line and ends before whitespace
    or at its end); so every option is not empty and free of
    whitespace, quoted or not, and the options put end to end are the
    line without its whitespace: no character is lost or moved. *)
Theorem typechecker_options_are_tokens
    (run : capability) (line cell : pystr) (t : trace) :
  exists options,
    invocations (typechecker (Return run) line cell t).2
    = invocations t ++ [[py "-c"; cell] ++ options]
    /\ splits_into line options
    /\ (forall options', splits_into line options' -> options' = options)
    /\ Forall is_token options
    /\ concat options = List.filter (fun c => negb (isspace c)) line.
Proof.
  exists (split line). split; [apply typechecker_invocations|].
  split; [apply PyFacts.split_splits_into|]. split; [|split].
  - intros options' H. symmetry. apply PyFacts.splits_into_split, H.
  - apply (PyFacts.splits_into_tokens line), PyFacts.split_splits_into.
  - apply PyFacts.splits_into_concat, PyFacts.split_splits_into.
Qed.

(** X4. [run] receives ["-c"] and the cell and nothing more exactly
    when the line is empty or holds whitespace only: one character that
    is not whitespace is enough for an option to be passed. *)
Theorem typechecker_no_option_iff
    (run : capability) (line cell : pystr) (t : trace) :
  invocations (typechecker (Return run) line cell t).2
  = invocations t ++ [[py "-c"; cell]]
  <-> forallb isspace line = true.
Proof.
  rewrite typechecker_invocations, <- PyFacts.split_nil_iff. split.
  - intros H. apply app_inv_head in H. injection H as H. exact H.
  - intros ->. reflexivity.
Qed.

(** X5. Options that are not empty and hold no whitespace, written on
    the line with one space between them, reach [run] as they are and
    in the same order. *)
Theorem typechecker_passes_options
    (run : capability) (options : list pystr) (cell : pystr) (t : trace) :
  Forall is_token options ->
  invocations (typechecker (Return run) (join (py " ") options) cell t).2
  = invocations t ++ [[py "-c"; cell] ++ options].
Proof.
  intros Hoptions. rewrite typechecker_invocations, PyFacts.split_join.
  - reflexivity.
  - repeat constructor.
  - discriminate.
  - exact Hoptions.
Qed.

Lemma typechecker_passes_options_python_version :
  Forall is_token [py "--strict"; py "--python-version"; py "3.8"]
  /\ invocations
       (typechecker (Return run_clean)
          (join (py " ") [py "--strict"; py "--python-version"; py "3.8"])
          (py "x = 1") []).2
     = [[py "-c"; py "x = 1"; py "--strict"; py "--python-version"; py "3.8"]].
Proof.
  assert (H : Forall is_token [py "--strict"; py "--python-version"; py "3.8"]).
  { repeat constructor; discriminate. }
  split; [exact H|].
  exact (typechecker_passes_options run_clean _ (py "x = 1") [] H).
Defined.

(** X6. Two lines written one after the other with whitespace between
    them give the options of the first followed by the options of the
    second. *)
Theorem typechecker_options_compose
    (run : capability) (line1 sep line2 cell : pystr) (t : trace) :
  sep <> [] ->
  forallb isspace sep = true ->
  invocations (typechecker (Return run) (line1 ++ sep ++ line2) cell t).2
  = invocations t ++ [[py "-c"; cell] ++ split line1 ++ split line2].
Proof.
  intros Hne Hsep. rewrite typechecker_invocations, PyFacts.split_app.
  - reflexivity.
  - apply PyFacts.forallb_isspace_blank. exact Hsep.
  - exact Hne.
Qed.

Lemma typechecker_options_compose_tab :
  ([9; 32]%N : pystr) <> []
  /\ forallb isspace [9; 32]%N = true
  /\ invocations
       (typechecker (Return run_clean)
          (py "--strict  --pretty" ++ [9; 32]%N ++ py " --no-color-output ")
          (py "x = 1") []).2
     = [[py "-c"; py "x = 1"; py "--strict"; py "--pretty";
         py "--no-color-output"]].
Proof.
  assert (Hne : ([9; 32]%N : pystr) <> []) by discriminate.
  assert (Hsep : forallb isspace [9; 32]%N = true) by reflexivity.
  split; [exact Hne|]. split; [exact Hsep|].
  exact (typechecker_options_compose run_clean (py "--strict  --pretty") [9; 32]%N
           (py " --no-color-output ") (py "x = 1") [] Hne Hsep).
Defined.

End MyPyCheckFacts.

(** ** Facts about the tuple demo *)

Module MyTuplesFacts.
Import MyTuples.

Lemma getitem_is_Some (d : list (string * type_object)) (key : string) :
  is_Some (getitem d key) <-> In key (map fst d).
Proof.
  induction d as [|[k v] d IH]; simpl.
  - split; [intros [x Hx]; discriminate Hx | intros []].
  - destruct (String.eqb_spec k key) as [->|Hne].
    + split; [intros _; left; reflexivity | intros _; exists v; reflexivity].
    + rewrite IH. split; [intros H; right; exact H|].
      intros [E|H]; [congruence | exact H].
Qed.

(** C6. For all integers [a], [b], [c], [my_tuple0(a, b, c)] is the
    tuple of exactly three items [a], [b], [c], in this order; the same
    holds for the second definition. *)
Theorem my_tuple0_builds_triple (a b c : Z) :
  Forall (fun f : function =>
            __call__ f a b c = [a; b; c]
            /\ length (__call__ f a b c) = 3%nat
            /\ __call__ f a b c !! 0%nat = Some a
            /\ __call__ f a b c !! 1%nat = Some b
            /\ __call__ f a b c !! 2%nat = Some c)
         [my_tuple0; my_tuple0'].
Proof. repeat constructor. Qed.

(** C7. The [__annotations__] of [my_tuple0] have exactly the keys
    ["a"], ["b"], ["c"] and ["return"], in this order, bound to [int],
    [int], [int] and [tuple]; the same holds for the second
    definition. *)
Theorem my_tuple0_annotations :
  Forall (fun f : function =>
            map fst (__annotations__ f) = ["a"; "b"; "c"; "return"]%string
            /\ getitem (__annotations__ f) "a" = Some int
            /\ getitem (__annotations__ f) "b" = Some int
            /\ getitem (__annotations__ f) "c" = Some int
            /\ getitem (__annotations__ f) "return" = Some tuple
            /\ (forall key,
                   is_Some (getitem (__annotations__ f) key)
                   <-> In key ["a"; "b"; "c"; "return"]%string))
         [my_tuple0; my_tuple0'].
Proof.
  assert (H : forall f : function,
             __annotations__ f
             = [("a", int); ("b", int); ("c", int); ("return", tuple)]%string ->
             map fst (__annotations__ f) = ["a"; "b"; "c"; "return"]%string
             /\ getitem (__annotations__ f) "a" = Some int
             /\ getitem (__annotations__ f) "b" = Some int
             /\ getitem (__annotations__ f) "c" = Some int
             /\ getitem (__annotations__ f) "return" = Some tuple
             /\ (forall key,
                    is_Some (getitem (__annotations__ f) key)
                    <-> In key ["a"; "b"; "c"; "return"]%string)).
  { intros f Hf. rewrite Hf.
    do 5 (split; [reflexivity|]).
    intros key. apply getitem_is_Some. }
  constructor; [apply H; reflexivity|].
  constructor; [apply H; reflexivity|].
  constructor.
Qed.

(** C8. The two definitions of [my_tuple0] are the same function, and
    the script, which runs the demo once after each of them, ends
    without an exception having printed the line of the tuple
    [(4, 7, -5)] and the line of the annotations, and then the same two
    lines again. *)
Theorem script_prints_twice :
  my_tuple0 = my_tuple0'
  /\ (forall a b c, __call__ my_tuple0 a b c = __call__ my_tuple0' a b c)
  /\ (forall st,
         exists st',
           script st = (inr tt, st')
           /\ stdout st' = stdout st ++ [tuple_line; annotations_line;
                                         tuple_line; annotations_line])
  /\ contains tuple_line (py "(4, 7, -5)") = true
  /\ __call__ my_tuple0 4 7 (-5) = [4; 7; -5].
Proof.
  split; [reflexivity|]. split; [reflexivity|]. split; [|split; reflexivity].
  intros [g out]. eexists. split; [reflexivity|].
  cbn [stdout]. rewrite <- !app_assoc. reflexivity.
Qed.

(** *** Further properties of the script *)


End MyTuplesFacts.
